(** * Auth cookie relay: the view handlers of [users/views.py]

    The views wrap the token operations of the authentication libraries
    (djoser's [ProviderAuthView], simplejwt's [TokenObtainPairView],
    [TokenRefreshView] and [TokenVerifyView]) and copy tokens between
    response bodies, request bodies and cookies.

    Requests and responses are Python objects that the handlers mutate in
    place ([request.data[...] = ...], [response.set_cookie(...)]) and share
    with the wrapped view, so they live in a store and are passed by
    reference.  A handler is a computation over that store which either
    returns a value or raises. *)

From Stdlib Require Import ZArith.
From stdpp Require Import base option strings list gmap.

Local Open Scope string_scope.
Local Open Scope Z_scope.
Local Open Scope list_scope.

(** ** Python values *)

(** The values that travel through bodies and cookies. *)
Inductive pyval : Type :=
  | PNone
  | PBool (b : bool)
  | PInt (z : Z)
  | PStr (s : string).

(** Python truth value, as tested by [if v:]. *)
Definition truthy (v : pyval) : bool :=
  match v with
  | PNone => false
  | PBool b => b
  | PInt z => negb (Z.eqb z 0)
  | PStr s => negb (String.eqb s "")
  end.

(** [d.get(k)]: the entry, or [None] when the key is missing. *)
Definition dict_get (d : gmap string pyval) (k : string) : pyval :=
  default PNone (d !! k).

(** [request.COOKIES.get(k)]: cookie values are always strings. *)
Definition cookies_get (c : gmap string string) (k : string) : pyval :=
  from_option PStr PNone (c !! k).

(** ** Configuration *)

Inductive SameSite : Type := Lax | Strict | SameSiteNone.

(** Modelled from the spec: the configuration module behind
    [settings.AUTH_COOKIE_*] is not part of the sources.  It is the fixed
    record of cookie attributes of the data model: a max age in seconds for
    each token kind, a path, the secure and http-only flags and the
    same-site policy. *)
Record Settings : Type := mkSettings {
  AUTH_COOKIE_ACCESS_MAX_AGE : Z;
  AUTH_COOKIE_REFRESH_MAX_AGE : Z;
  AUTH_COOKIE_PATH : string;
  AUTH_COOKIE_SECURE : bool;
  AUTH_COOKIE_HTTP_ONLY : bool;
  AUTH_COOKIE_SAMESITE : SameSite
}.

(** ** Cookies of a response *)

(** The arguments of one [set_cookie] call. *)
Record Morsel : Type := mkMorsel {
  value : pyval;
  max_age : Z;
  path : string;
  secure : bool;
  httponly : bool;
  samesite : SameSite
}.

(** What a response tells the client to do with a cookie name: the last
    [set_cookie] or [delete_cookie] call made for that name. *)
Inductive directive : Type :=
  | SetCookie (m : Morsel)
  | DeleteCookie.

(** ** Requests and responses *)

Module Request.
(** A request whose body parsed to a JSON object: [data] is that dict. *)
Record t : Type := mk {
  COOKIES : gmap string string;
  data : gmap string pyval
}.
End Request.

Module Response.
(** [data] is [None] for a response built without a body. *)
Record t : Type := mk {
  status_code : Z;
  data : option (gmap string pyval);
  cookies : gmap string directive;
  headers : gmap string string
}.
End Response.

Definition HTTP_200_OK : Z := 200.
Definition HTTP_204_NO_CONTENT : Z := 204.

Inductive permission : Type := AllowAny | IsAuthenticated.

(** ** The object store *)

Inductive exn : Type :=
  | AttributeError
  | TypeError
  | LibraryError (name : string).

(** What [request.data] is when the body did not parse to a JSON object:
    the immutable [QueryDict] of a form-encoded or multipart body, or the
    list or scalar of any other JSON document.  None of them takes an
    item assignment. *)
Inductive sealed_body : Type :=
  | QueryDict (d : gmap string (list string))
  | JsonArray (l : list pyval)
  | JsonScalar (v : pyval).

(** The exception of [data[key] = v] on such a value: an immutable
    [QueryDict] raises [AttributeError], a list and a scalar raise
    [TypeError]. *)
Definition setitem_error (b : sealed_body) : exn :=
  match b with
  | QueryDict _ => AttributeError
  | JsonArray _ => TypeError
  | JsonScalar _ => TypeError
  end.

(** The objects the views handle.  [ORequest] is a request whose body
    parsed to a JSON object, so that [request.data] is a plain dict, the
    record [Request.t]; [OSealedRequest] is a request, with its cookies,
    whose [request.data] is one of the values above. *)
Inductive object : Type :=
  | ORequest (rq : Request.t)
  | OResponse (rp : Response.t)
  | OSealedRequest (COOKIES : gmap string string) (data : sealed_body).

(** A reference is an index into the store; allocation appends. *)
Definition ref : Type := nat.

Inductive outcome (A : Type) : Type :=
  | Returns (a : A)
  | Raises (e : exn).
Arguments Returns {A} a.
Arguments Raises {A} e.

(** Computations: read and update the store, then return or raise. *)
Definition M (A : Type) : Type := list object → outcome A * list object.

#[global] Instance M_ret : MRet M := λ A a h, (Returns a, h).
#[global] Instance M_bind : MBind M := λ A B f m h,
  match m h with
  | (Returns a, h') => f a h'
  | (Raises e, h') => (Raises e, h')
  end.

Definition raise {A : Type} (e : exn) : M A := λ h, (Raises e, h).

(** The request with a dict body behind a reference. *)
Definition get_request (r : ref) : M Request.t := λ h,
  match h !! r with
  | Some (ORequest rq) => (Returns rq, h)
  | _ => (Raises AttributeError, h)
  end.

Definition get_response (r : ref) : M Response.t := λ h,
  match h !! r with
  | Some (OResponse rp) => (Returns rp, h)
  | _ => (Raises AttributeError, h)
  end.

Definition store (r : ref) (o : object) : M unit := λ h,
  (Returns tt, <[r := o]> h).

(** [Response(data, status=status)] *)
Definition new_Response (d : option (gmap string pyval)) (status : Z) : M ref :=
  λ h, (Returns (length h),
        h ++ [OResponse (Response.mk status d ∅ ∅)]).

(** [request.COOKIES]: every request has cookies, whatever its body; any
    other object has none of a request's attributes. *)
Definition get_COOKIES (request : ref) : M (gmap string string) := λ h,
  match h !! request with
  | Some (ORequest rq) => (Returns (Request.COOKIES rq), h)
  | Some (OSealedRequest c _) => (Returns c, h)
  | _ => (Raises AttributeError, h)
  end.

(** [request.COOKIES.get(key)] *)
Definition COOKIES_get (request : ref) (key : string) : M pyval :=
  c ← get_COOKIES request;
  mret (cookies_get c key).

(** [request.data[key] = v]: the entry is set in a dict; on any other
    body the assignment raises and the request is left as it was. *)
Definition data_setitem (request : ref) (key : string) (v : pyval) : M unit :=
  λ h,
  match h !! request with
  | Some (ORequest rq) =>
      (Returns tt,
       <[request := ORequest
           (Request.mk (Request.COOKIES rq)
              (<[key := v]> (Request.data rq)))]> h)
  | Some (OSealedRequest _ b) => (Raises (setitem_error b), h)
  | _ => (Raises AttributeError, h)
  end.

(** [response.status_code] *)
Definition status_code (response : ref) : M Z :=
  rp ← get_response response;
  mret (Response.status_code rp).

(** [response.data.get(key)]; [None] has no [get]. *)
Definition data_get (response : ref) (key : string) : M pyval :=
  rp ← get_response response;
  match Response.data rp with
  | Some d => mret (dict_get d key)
  | None => raise AttributeError
  end.

(** The record update behind [set_cookie] and [delete_cookie]: the cookie
    jar gets the directive under the cookie's name, the rest stays. *)
Definition with_cookie (rp : Response.t) (key : string) (c : directive)
    : Response.t :=
  Response.mk (Response.status_code rp) (Response.data rp)
    (<[key := c]> (Response.cookies rp)) (Response.headers rp).

(** [response.set_cookie(key, value, max_age=, path=, secure=, httponly=,
    samesite=)] *)
Definition set_cookie (response : ref) (key : string) (v : pyval)
    (max_age : Z) (path : string) (secure httponly : bool)
    (samesite : SameSite) : M unit :=
  rp ← get_response response;
  store response
    (OResponse (with_cookie rp key
       (SetCookie (mkMorsel v max_age path secure httponly samesite)))).

(** [response.delete_cookie(key)] *)
Definition delete_cookie (response : ref) (key : string) : M unit :=
  rp ← get_response response;
  store response (OResponse (with_cookie rp key DeleteCookie)).

(** ** The views *)

(** The shape of a view method, [def post(self, request, *args, **kwargs)]:
    the request, the positional and the keyword arguments of the route. *)
Definition View : Type := ref → list pyval → gmap string pyval → M ref.

Section views.
Variable settings : Settings.

(** The [post] methods of the parent classes, reached through
    [super().post(request, *args, **kwargs)]. *)
Variable ProviderAuthView_post : View.
Variable TokenObtainPairView_post : View.
Variable TokenRefreshView_post : View.
Variable TokenVerifyView_post : View.

Definition CustomProviderAuthView_post (request : ref) (args : list pyval)
    (kwargs : gmap string pyval) : M ref :=
  response ← ProviderAuthView_post request args kwargs;
  code ← status_code response;
  (if decide (code = 201) then
     access_token ← data_get response "access";
     refresh_token ← data_get response "refresh";
     set_cookie response "access" access_token
       (AUTH_COOKIE_ACCESS_MAX_AGE settings)
       (AUTH_COOKIE_PATH settings)
       (AUTH_COOKIE_SECURE settings)
       (AUTH_COOKIE_HTTP_ONLY settings)
       (AUTH_COOKIE_SAMESITE settings);;
     set_cookie response "refresh" refresh_token
       (AUTH_COOKIE_REFRESH_MAX_AGE settings)
       (AUTH_COOKIE_PATH settings)
       (AUTH_COOKIE_SECURE settings)
       (AUTH_COOKIE_HTTP_ONLY settings)
       (AUTH_COOKIE_SAMESITE settings)
   else mret tt);;
  mret response.

Definition CustomTokenObtainPairView_post (request : ref) (args : list pyval)
    (kwargs : gmap string pyval) : M ref :=
  response ← TokenObtainPairView_post request args kwargs;
  code ← status_code response;
  (if decide (code = 200) then
     access_token ← data_get response "access";
     refresh_token ← data_get response "refresh";
     set_cookie response "access" access_token
       (AUTH_COOKIE_ACCESS_MAX_AGE settings)
       (AUTH_COOKIE_PATH settings)
       (AUTH_COOKIE_SECURE settings)
       (AUTH_COOKIE_HTTP_ONLY settings)
       (AUTH_COOKIE_SAMESITE settings);;
     set_cookie response "refresh" refresh_token
       (AUTH_COOKIE_REFRESH_MAX_AGE settings)
       (AUTH_COOKIE_PATH settings)
       (AUTH_COOKIE_SECURE settings)
       (AUTH_COOKIE_HTTP_ONLY settings)
       (AUTH_COOKIE_SAMESITE settings)
   else mret tt);;
  mret response.

Definition CustomTokenRefreshView_post (request : ref) (args : list pyval)
    (kwargs : gmap string pyval) : M ref :=
  refresh_token ← COOKIES_get request "refresh";
  (if truthy refresh_token then
     data_setitem request "refresh" refresh_token
   else mret tt);;
  response ← TokenRefreshView_post request args kwargs;
  code ← status_code response;
  (if decide (code = 200) then
     access_token ← data_get response "access";
     set_cookie response "access" access_token
       (AUTH_COOKIE_ACCESS_MAX_AGE settings)
       (AUTH_COOKIE_PATH settings)
       (AUTH_COOKIE_SECURE settings)
       (AUTH_COOKIE_HTTP_ONLY settings)
       (AUTH_COOKIE_SAMESITE settings)
   else mret tt);;
  mret response.

Definition CustomTokenVerifyView_post (request : ref) (args : list pyval)
    (kwargs : gmap string pyval) : M ref :=
  access_token ← COOKIES_get request "access";
  (if truthy access_token then
     data_setitem request "token" access_token
   else mret tt);;
  TokenVerifyView_post request args kwargs.
End views.

Definition LogoutView_post (request : ref) (args : list pyval)
    (kwargs : gmap string pyval) : M ref :=
  response ← new_Response None HTTP_204_NO_CONTENT;
  delete_cookie response "access";;
  delete_cookie response "refresh";;
  mret response.

Definition PrivacyPolicyView_permission_classes : list permission := [AllowAny].

Definition PrivacyPolicyView_get (request : ref) (args : list pyval)
    (kwargs : gmap string pyval) : M ref :=
  let privacy_policy_text := "This is the privacy policy of our application. We value your privacy and are committed to protecting your personal information." in
  new_Response (Some {[ "message" := PStr privacy_policy_text ]}) HTTP_200_OK.

Definition TermsOfServiceView_permission_classes : list permission := [AllowAny].

Definition TermsOfServiceView_get (request : ref) (args : list pyval)
    (kwargs : gmap string pyval) : M ref :=
  let terms_of_service_text := "
        These are the terms of service of our application. By using our service, you agree to comply with these terms.
        " in
  new_Response (Some {[ "message" := PStr terms_of_service_text ]}) HTTP_200_OK.

Definition DataDeletionPolicyView_permission_classes : list permission := [AllowAny].

Definition DataDeletionPolicyView_get (request : ref) (args : list pyval)
    (kwargs : gmap string pyval) : M ref :=
  let data_deletion_policy_text := "
        This is the data deletion policy of our application. You can request the deletion of your personal data at any time.
        " in
  new_Response (Some {[ "message" := PStr data_deletion_policy_text ]}) HTTP_200_OK.

(** ** Vocabulary of the statements *)

(** The two login views, each with the status its [post] tests for. *)
Inductive login : Type := PasswordLogin | SocialLogin.

Definition login_post (l : login) : Settings → View → View :=
  match l with
  | PasswordLogin => CustomTokenObtainPairView_post
  | SocialLogin => CustomProviderAuthView_post
  end.

Definition login_success (l : login) : Z :=
  match l with
  | PasswordLogin => 200
  | SocialLogin => 201
  end.

(** The cookie written for an access token [v], and for a refresh token. *)
Definition access_cookie (settings : Settings) (v : pyval) : directive :=
  SetCookie {| value := v;
               max_age := AUTH_COOKIE_ACCESS_MAX_AGE settings;
               path := AUTH_COOKIE_PATH settings;
               secure := AUTH_COOKIE_SECURE settings;
               httponly := AUTH_COOKIE_HTTP_ONLY settings;
               samesite := AUTH_COOKIE_SAMESITE settings |}.

Definition refresh_cookie (settings : Settings) (v : pyval) : directive :=
  SetCookie {| value := v;
               max_age := AUTH_COOKIE_REFRESH_MAX_AGE settings;
               path := AUTH_COOKIE_PATH settings;
               secure := AUTH_COOKIE_SECURE settings;
               httponly := AUTH_COOKIE_HTTP_ONLY settings;
               samesite := AUTH_COOKIE_SAMESITE settings |}.

(** The request after [request.data[field] = v]. *)
Definition injected (rq : Request.t) (field v : string) : Request.t :=
  Request.mk (Request.COOKIES rq) (<[field := PStr v]> (Request.data rq)).

(** The store in which the parent view is called: the request has got the
    cookie's value under [field] when the cookie is there and not empty,
    and is as it was otherwise. *)
Definition forwarded (h : list object) (request : ref) (rq : Request.t)
    (cookie field : string) : list object :=
  match Request.COOKIES rq !! cookie with
  | Some v =>
      if decide (v = "") then h
      else <[request := ORequest (injected rq field v)]> h
  | None => h
  end.

(** The store [h_call] is the store [h] but for the entry [field] of the
    body of the request at [request]: the stores have the same size and
    the same objects elsewhere, and the request keeps its cookies and the
    other entries of its body. *)
Definition differs_in_field (h h_call : list object) (request : ref)
    (rq : Request.t) (field : string) : Prop :=
  length h_call = length h
  ∧ (∀ r : ref, r ≠ request → h_call !! r = h !! r)
  ∧ ∃ rq' : Request.t,
      h_call !! request = Some (ORequest rq')
      ∧ Request.COOKIES rq' = Request.COOKIES rq
      ∧ ∀ key : string, key ≠ field →
          Request.data rq' !! key = Request.data rq !! key.

(** The rest of the refresh view's [post] once the parent view has
    returned [response]. *)
Definition relay_access (settings : Settings) (response : ref) : M ref :=
  code ← status_code response;
  (if decide (code = 200) then
     access_token ← data_get response "access";
     set_cookie response "access" access_token
       (AUTH_COOKIE_ACCESS_MAX_AGE settings)
       (AUTH_COOKIE_PATH settings)
       (AUTH_COOKIE_SECURE settings)
       (AUTH_COOKIE_HTTP_ONLY settings)
       (AUTH_COOKIE_SAMESITE settings)
   else mret tt);;
  mret response.

(** ** Sample inputs *)

Definition sample_settings : Settings :=
  mkSettings 300 86400 "/" true true Lax.

(** A browser request carrying both cookies and an empty JSON body. *)
Definition sample_request : Request.t :=
  Request.mk {[ "access" := "A"; "refresh" := "R" ]} ∅.

(** A request whose cookies are there but empty, with tokens in the body. *)
Definition blank_cookie_request : Request.t :=
  Request.mk {[ "access" := ""; "refresh" := "" ]}
    {[ "refresh" := PStr "B"; "token" := PStr "B" ]}.

Definition token_body : gmap string pyval :=
  {[ "access" := PStr "A2"; "refresh" := PStr "R2" ]}.

(** A form-encoded request with both cookies and its tokens in the form,
    the same cookies over a JSON array, and a form-encoded request without
    cookies. *)
Definition form_request : object :=
  OSealedRequest {[ "access" := "A"; "refresh" := "R" ]}
    (QueryDict {[ "refresh" := ["B"]; "token" := ["B"] ]}).

Definition array_request : object :=
  OSealedRequest {[ "access" := "A"; "refresh" := "R" ]} (JsonArray []).

Definition cookieless_form_request : object :=
  OSealedRequest ∅ (QueryDict {[ "refresh" := ["B"]; "token" := ["B"] ]}).

(** A parent view that answers with a fresh response. *)
Definition answer (status : Z) (d : option (gmap string pyval))
    (request : ref) (args : list pyval)
    (kwargs : gmap string pyval) : M ref :=
  new_Response d status.

(** A parent view that rejects the request and reports the value it found
    under [field] of the request body. *)
Definition echo (field : string) (request : ref) (args : list pyval)
    (kwargs : gmap string pyval) : M ref :=
  rq ← get_request request;
  new_Response (Some {[ "seen" := dict_get (Request.data rq) field ]}) 400.


(** ** Running the primitives *)

Lemma bind_run {A B : Type} (m : M A) (f : A → M B) (h : list object) :
  (m ≫= f) h =
  match m h with
  | (Returns a, h') => f a h'
  | (Raises e, h') => (Raises e, h')
  end.
Proof. reflexivity. Qed.

Lemma get_request_run (r : ref) (rq : Request.t) (h : list object) :
  h !! r = Some (ORequest rq) → get_request r h = (Returns rq, h).
Proof. intros Hr. unfold get_request. by rewrite Hr. Qed.

Lemma get_response_run (r : ref) (rp : Response.t) (h : list object) :
  h !! r = Some (OResponse rp) → get_response r h = (Returns rp, h).
Proof. intros Hr. unfold get_response. by rewrite Hr. Qed.

Lemma lookup_stored (r : ref) (o o' : object) (h : list object) :
  h !! r = Some o → <[r := o']> h !! r = Some o'.
Proof.
  intros Hr. apply list_lookup_insert_eq. by eapply lookup_lt_Some.
Qed.

Lemma COOKIES_get_run (r : ref) (key : string) (rq : Request.t)
    (h : list object) :
  h !! r = Some (ORequest rq) →
  COOKIES_get r key h = (Returns (cookies_get (Request.COOKIES rq) key), h).
Proof.
  intros Hr. unfold COOKIES_get. rewrite bind_run.
  unfold get_COOKIES. by rewrite Hr.
Qed.

Lemma data_setitem_run (r : ref) (key v : string) (rq : Request.t)
    (h : list object) :
  h !! r = Some (ORequest rq) →
  data_setitem r key (PStr v) h
  = (Returns tt, <[r := ORequest (injected rq key v)]> h).
Proof.
  intros Hr. unfold data_setitem. by rewrite Hr.
Qed.

Lemma status_code_run (r : ref) (rp : Response.t) (h : list object) :
  h !! r = Some (OResponse rp) →
  status_code r h = (Returns (Response.status_code rp), h).
Proof.
  intros Hr. unfold status_code. rewrite bind_run.
  by rewrite (get_response_run _ _ _ Hr).
Qed.

Lemma data_get_run (r : ref) (key : string) (rp : Response.t)
    (d : gmap string pyval) (h : list object) :
  h !! r = Some (OResponse rp) → Response.data rp = Some d →
  data_get r key h = (Returns (dict_get d key), h).
Proof.
  intros Hr Hd. unfold data_get. rewrite bind_run.
  rewrite (get_response_run _ _ _ Hr). by rewrite Hd.
Qed.

Lemma data_get_no_body (r : ref) (key : string) (rp : Response.t)
    (h : list object) :
  h !! r = Some (OResponse rp) → Response.data rp = None →
  data_get r key h = (Raises AttributeError, h).
Proof.
  intros Hr Hd. unfold data_get. rewrite bind_run.
  rewrite (get_response_run _ _ _ Hr). by rewrite Hd.
Qed.

Lemma set_cookie_run (r : ref) (key : string) (v : pyval) (age : Z)
    (p : string) (s ho : bool) (ss : SameSite) (rp : Response.t)
    (h : list object) :
  h !! r = Some (OResponse rp) →
  set_cookie r key v age p s ho ss h
  = (Returns tt,
     <[r := OResponse (with_cookie rp key
                         (SetCookie (mkMorsel v age p s ho ss)))]> h).
Proof.
  intros Hr. unfold set_cookie. rewrite bind_run.
  by rewrite (get_response_run _ _ _ Hr).
Qed.

Lemma delete_cookie_run (r : ref) (key : string) (rp : Response.t)
    (h : list object) :
  h !! r = Some (OResponse rp) →
  delete_cookie r key h
  = (Returns tt, <[r := OResponse (with_cookie rp key DeleteCookie)]> h).
Proof.
  intros Hr. unfold delete_cookie. rewrite bind_run.
  by rewrite (get_response_run _ _ _ Hr).
Qed.

(** ** The relay after the parent view has returned *)

Section relay.
Context (settings : Settings) (r : ref) (rp : Response.t)
  (h' : list object).
Hypothesis Hr : h' !! r = Some (OResponse rp).

(** Both token cookies written, as the login views do. *)
Lemma token_cookies_run (d : gmap string pyval) :
  Response.data rp = Some d →
  (access_token ← data_get r "access";
   refresh_token ← data_get r "refresh";
   set_cookie r "access" access_token
     (AUTH_COOKIE_ACCESS_MAX_AGE settings) (AUTH_COOKIE_PATH settings)
     (AUTH_COOKIE_SECURE settings) (AUTH_COOKIE_HTTP_ONLY settings)
     (AUTH_COOKIE_SAMESITE settings);;
   set_cookie r "refresh" refresh_token
     (AUTH_COOKIE_REFRESH_MAX_AGE settings) (AUTH_COOKIE_PATH settings)
     (AUTH_COOKIE_SECURE settings) (AUTH_COOKIE_HTTP_ONLY settings)
     (AUTH_COOKIE_SAMESITE settings)) h'
  = (Returns tt,
     <[r := OResponse
         (with_cookie
            (with_cookie rp "access"
               (access_cookie settings (dict_get d "access")))
            "refresh" (refresh_cookie settings (dict_get d "refresh")))]> h').
Proof.
  intros Hd.
  rewrite bind_run, (data_get_run _ _ _ _ _ Hr Hd).
  rewrite bind_run, (data_get_run _ _ _ _ _ Hr Hd).
  rewrite bind_run, (set_cookie_run _ _ _ _ _ _ _ _ _ _ Hr).
  erewrite set_cookie_run by (by eapply lookup_stored).
  by rewrite list_insert_insert_eq.
Qed.

End relay.

(** ** The login views, run *)

Lemma login_post_run (l : login) (settings : Settings)
    (delegate : View) (request r : ref) (args : list pyval)
    (kwargs : gmap string pyval) (h h' : list object)
    (rp : Response.t) :
  delegate request args kwargs h = (Returns r, h') →
  h' !! r = Some (OResponse rp) →
  login_post l settings delegate request args kwargs h =
  if decide (Response.status_code rp = login_success l) then
    match Response.data rp with
    | Some d =>
        (Returns r,
         <[r := OResponse
             (with_cookie
                (with_cookie rp "access"
                   (access_cookie settings (dict_get d "access")))
                "refresh"
                (refresh_cookie settings (dict_get d "refresh")))]> h')
    | None => (Raises AttributeError, h')
    end
  else (Returns r, h').
Proof.
  intros Hdel Hr.
  destruct l; cbn [login_post login_success];
    [unfold CustomTokenObtainPairView_post
    |unfold CustomProviderAuthView_post];
    rewrite bind_run, Hdel, bind_run, (status_code_run _ _ _ Hr);
    rewrite bind_run; case_decide; try done;
    (destruct (Response.data rp) as [d|] eqn:Hd;
     [ by rewrite (token_cookies_run settings _ _ _ Hr d Hd)
     | rewrite bind_run; by rewrite (data_get_no_body _ _ _ _ Hr Hd) ]).
Qed.


(** ** The refresh and verify views, run *)

Lemma truthy_PStr (v : string) : truthy (PStr v) = bool_decide (v ≠ "").
Proof.
  cbn. destruct (String.eqb_spec v ""); subst; cbn.
  - by rewrite bool_decide_eq_false_2 by (intros ?; congruence).
  - by rewrite bool_decide_eq_true_2.
Qed.

(** The conditional assignment at the head of the refresh and verify
    views takes the store to [forwarded], where the rest [k] of the view
    runs. *)
Lemma forward_run {A : Type} (request : ref) (rq : Request.t)
    (cookie field : string) (k : M A) (h : list object) :
  h !! request = Some (ORequest rq) →
  (token ← COOKIES_get request cookie;
   (if truthy token then data_setitem request field token else mret tt);;
   k) h
  = k (forwarded h request rq cookie field).
Proof.
  intros Hrq. rewrite bind_run, (COOKIES_get_run _ _ _ _ Hrq).
  unfold forwarded, cookies_get.
  destruct (Request.COOKIES rq !! cookie) as [v|]; cbn [from_option]; [|done].
  rewrite truthy_PStr. case_decide; subst.
  - done.
  - rewrite bool_decide_eq_true_2 by done.
    by rewrite bind_run, (data_setitem_run _ _ _ _ _ Hrq).
Qed.

(** On a request whose body takes no assignment the same head runs the
    rest on the store as it is when the cookie is absent or empty, and
    raises at the assignment otherwise. *)
Lemma forward_run_sealed {A : Type} (request : ref)
    (c : gmap string string) (b : sealed_body) (cookie field : string)
    (k : M A) (h : list object) :
  h !! request = Some (OSealedRequest c b) →
  (token ← COOKIES_get request cookie;
   (if truthy token then data_setitem request field token else mret tt);;
   k) h
  = match c !! cookie with
    | Some v => if decide (v = "") then k h else (Raises (setitem_error b), h)
    | None => k h
    end.
Proof.
  intros Hrq. unfold COOKIES_get. rewrite !bind_run.
  unfold get_COOKIES. rewrite Hrq. cbn [mret M_ret]. unfold cookies_get.
  destruct (c !! cookie) as [v|]; cbn [from_option]; [|done].
  rewrite truthy_PStr. case_decide; subst.
  - done.
  - rewrite bool_decide_eq_true_2 by done.
    rewrite bind_run. unfold data_setitem. by rewrite Hrq.
Qed.

Lemma refresh_post_run (settings : Settings) (delegate : View)
    (request : ref) (args : list pyval)
    (kwargs : gmap string pyval) (rq : Request.t) (h : list object) :
  h !! request = Some (ORequest rq) →
  CustomTokenRefreshView_post settings delegate request args kwargs h
  = (delegate request args kwargs ≫= relay_access settings)
      (forwarded h request rq "refresh" "refresh").
Proof.
  intros Hrq. unfold CustomTokenRefreshView_post.
  by rewrite (forward_run _ _ _ _ _ _ Hrq).
Qed.

Lemma verify_post_run (delegate : View) (request : ref) (args : list pyval)
    (kwargs : gmap string pyval)
    (rq : Request.t) (h : list object) :
  h !! request = Some (ORequest rq) →
  CustomTokenVerifyView_post delegate request args kwargs h
  = delegate request args kwargs (forwarded h request rq "access" "token").
Proof.
  intros Hrq. unfold CustomTokenVerifyView_post.
  by rewrite (forward_run _ _ _ _ _ _ Hrq).
Qed.


(** Forwarding touches the request only: every response of the store is
    as it was. *)
Lemma forwarded_response (h : list object) (request : ref) (rq : Request.t)
    (cookie field : string) (r : ref) (rp : Response.t) :
  h !! request = Some (ORequest rq) →
  forwarded h request rq cookie field !! r = Some (OResponse rp)
  ↔ h !! r = Some (OResponse rp).
Proof.
  intros Hrq. unfold forwarded.
  destruct (Request.COOKIES rq !! cookie) as [v|]; [|done].
  case_decide; [done|].
  destruct (decide (request = r)) as [->|Hne].
  - rewrite (lookup_stored _ _ _ _ Hrq), Hrq. split; intros; simplify_eq.
  - by rewrite list_lookup_insert_ne.
Qed.

Lemma lookup_allocated (h : list object) (o : object) :
  (h ++ [o]) !! length h = Some o.
Proof. by apply list_lookup_middle. Qed.

Lemma store_allocated (h : list object) (o o' : object) :
  <[length h := o']> (h ++ [o]) = h ++ [o'].
Proof.
  rewrite insert_app_r_alt by done. by rewrite Nat.sub_diag.
Qed.

Lemma lookup_with_cookie (rp : Response.t) (key : string) (c : directive) :
  Response.cookies (with_cookie rp key c) !! key = Some c.
Proof. apply lookup_insert_eq. Qed.

Lemma lookup_with_cookie_ne (rp : Response.t) (key name : string)
    (c : directive) :
  name ≠ key →
  Response.cookies (with_cookie rp key c) !! name
  = Response.cookies rp !! name.
Proof. intros Hne. by apply lookup_insert_ne. Qed.


(** ** What the views do when the parent view raises, or answers success
    without a body *)


Lemma login_success_without_body_raises (l : login) (settings : Settings)
    (delegate : View) (request r : ref) (args : list pyval)
    (kwargs : gmap string pyval) (h h' : list object) (rp : Response.t) :
  delegate request args kwargs h = (Returns r, h') →
  h' !! r = Some (OResponse rp) →
  Response.status_code rp = login_success l →
  Response.data rp = None →
  login_post l settings delegate request args kwargs h
  = (Raises AttributeError, h').
Proof.
  intros Hdel Hr Hcode Hd.
  rewrite (login_post_run l settings _ _ _ _ _ _ _ _ Hdel Hr).
  rewrite decide_True by done. by rewrite Hd.
Qed.

(** A reference that holds no request makes the refresh and the verify
    view raise before the parent view is called. *)
Lemma verify_post_not_a_request (delegate : View) (request : ref)
    (args : list pyval) (kwargs : gmap string pyval) (h : list object) :
  (∀ rq : Request.t, h !! request ≠ Some (ORequest rq)) →
  (∀ (c : gmap string string) (b : sealed_body),
     h !! request ≠ Some (OSealedRequest c b)) →
  CustomTokenVerifyView_post delegate request args kwargs h
  = (Raises AttributeError, h).
Proof.
  intros Hnone Hnone'. unfold CustomTokenVerifyView_post, COOKIES_get.
  rewrite !bind_run. unfold get_COOKIES.
  destruct (h !! request) as [[rq|rp|c b]|] eqn:Hlook; try done.
  - by destruct (Hnone rq).
  - by destruct (Hnone' c b).
Qed.

(** ** The views on sample requests *)

(** The refresh view hands the cookie's token to the parent view, which
    finds it in the request body, and a rejection comes back as it is. *)
Example refresh_forwards_cookie :
  CustomTokenRefreshView_post sample_settings (echo "refresh") 0%nat [] ∅
    [ORequest sample_request]
  = (Returns 1%nat,
     [ORequest (injected sample_request "refresh" "R");
      OResponse (Response.mk 400 (Some {[ "seen" := PStr "R" ]}) ∅ ∅)]).
Proof. reflexivity. Qed.

Example verify_forwards_cookie :
  CustomTokenVerifyView_post (echo "token") 0%nat [] ∅
    [ORequest sample_request]
  = (Returns 1%nat,
     [ORequest (injected sample_request "token" "A");
      OResponse (Response.mk 400 (Some {[ "seen" := PStr "A" ]}) ∅ ∅)]).
Proof. reflexivity. Qed.

(** An empty cookie is not handed on: the parent finds the body's token. *)
Example refresh_keeps_body_on_empty_cookie :
  CustomTokenRefreshView_post sample_settings (echo "refresh") 0%nat [] ∅
    [ORequest blank_cookie_request]
  = (Returns 1%nat,
     [ORequest blank_cookie_request;
      OResponse (Response.mk 400 (Some {[ "seen" := PStr "B" ]}) ∅ ∅)]).
Proof. reflexivity. Qed.

(** A form-encoded refresh with a cookie stops at the assignment: the
    body is immutable, and the parent view is not reached. *)
Example refresh_raises_on_form_body :
  CustomTokenRefreshView_post sample_settings (echo "refresh") 0%nat [] ∅
    [form_request]
  = (Raises AttributeError, [form_request]).
Proof. reflexivity. Qed.

(** Without cookies the same form goes to the parent view as it is. *)
Example refresh_passes_form_body_without_cookie :
  CustomTokenRefreshView_post sample_settings
    (answer 200 (Some token_body)) 0%nat [] ∅ [cookieless_form_request]
  = (Returns 1%nat,
     [cookieless_form_request;
      OResponse
        (Response.mk 200 (Some token_body)
           {[ "access" := SetCookie
                (mkMorsel (PStr "A2") 300 "/" true true Lax) ]}
           ∅)]).
Proof. reflexivity. Qed.

(** A password login that succeeds. *)
Example password_login_sets_cookies :
  CustomTokenObtainPairView_post sample_settings
    (answer 200 (Some token_body)) 0%nat [] ∅ [ORequest sample_request]
  = (Returns 1%nat,
     [ORequest sample_request;
      OResponse
        (Response.mk 200 (Some token_body)
           {[ "access" := SetCookie
                (mkMorsel (PStr "A2") 300 "/" true true Lax);
              "refresh" := SetCookie
                (mkMorsel (PStr "R2") 86400 "/" true true Lax) ]}
           ∅)]).
Proof. reflexivity. Qed.

(** A social login answered with 200 instead of 201 sets nothing. *)
Example social_login_needs_201 :
  CustomProviderAuthView_post sample_settings
    (answer 200 (Some token_body)) 0%nat []
    {[ "provider" := PStr "google-oauth2" ]} [ORequest sample_request]
  = (Returns 1%nat,
     [ORequest sample_request;
      OResponse (Response.mk 200 (Some token_body) ∅ ∅)]).
Proof. reflexivity. Qed.

(** * The claims *)

(** C1. Both login views, when the parent view answers with the status
    the view tests for (200 for the password login, 201 for the social
    login) and a body [d], return that response with an "access" cookie
    whose value is the body's "access" field and a "refresh" cookie whose
    value is the body's "refresh" field.  Each cookie carries its own
    configured max age and the shared configured path, secure, http-only
    and same-site attributes. *)
Theorem login_success_sets_token_cookies (l : login) (settings : Settings)
    (delegate : View) (request r : ref) (args : list pyval)
    (kwargs : gmap string pyval) (h h' : list object)
    (rp : Response.t) (d : gmap string pyval) :
  delegate request args kwargs h = (Returns r, h') →
  h' !! r = Some (OResponse rp) →
  Response.status_code rp = login_success l →
  Response.data rp = Some d →
  ∃ rp' : Response.t,
    login_post l settings delegate request args kwargs h
    = (Returns r, <[r := OResponse rp']> h')
    ∧ Response.data rp' = Some d
    ∧ Response.cookies rp' !! "access"
      = Some (SetCookie
                {| value := dict_get d "access";
                   max_age := AUTH_COOKIE_ACCESS_MAX_AGE settings;
                   path := AUTH_COOKIE_PATH settings;
                   secure := AUTH_COOKIE_SECURE settings;
                   httponly := AUTH_COOKIE_HTTP_ONLY settings;
                   samesite := AUTH_COOKIE_SAMESITE settings |})
    ∧ Response.cookies rp' !! "refresh"
      = Some (SetCookie
                {| value := dict_get d "refresh";
                   max_age := AUTH_COOKIE_REFRESH_MAX_AGE settings;
                   path := AUTH_COOKIE_PATH settings;
                   secure := AUTH_COOKIE_SECURE settings;
                   httponly := AUTH_COOKIE_HTTP_ONLY settings;
                   samesite := AUTH_COOKIE_SAMESITE settings |}).
Proof.
  intros Hdel Hr Hcode Hd.
  rewrite (login_post_run l settings _ _ _ _ _ _ _ _ Hdel Hr).
  rewrite decide_True by done. rewrite Hd.
  eexists. split; [reflexivity|].
  split; [exact Hd|]. split.
  - rewrite lookup_with_cookie_ne by done. apply lookup_with_cookie.
  - apply lookup_with_cookie.
Qed.

Lemma login_success_sets_token_cookies_witness :
  let sets_cookies := λ l : login,
    ∃ rp' : Response.t,
      login_post l sample_settings
        (answer (login_success l) (Some token_body)) 0%nat [] ∅
        [ORequest sample_request]
      = (Returns 1%nat,
         <[1%nat := OResponse rp']>
           [ORequest sample_request;
            OResponse
              (Response.mk (login_success l) (Some token_body) ∅ ∅)])
      ∧ Response.data rp' = Some token_body
      ∧ Response.cookies rp' !! "access"
        = Some (SetCookie (mkMorsel (PStr "A2") 300 "/" true true Lax))
      ∧ Response.cookies rp' !! "refresh"
        = Some (SetCookie (mkMorsel (PStr "R2") 86400 "/" true true Lax)) in
  sets_cookies PasswordLogin ∧ sets_cookies SocialLogin.
Proof.
  cbv beta zeta. split.
  - apply (login_success_sets_token_cookies PasswordLogin sample_settings
             (answer 200 (Some token_body)) 0%nat 1%nat [] ∅
             [ORequest sample_request] _
             (Response.mk 200 (Some token_body) ∅ ∅) token_body);
      reflexivity.
  - apply (login_success_sets_token_cookies SocialLogin sample_settings
             (answer 201 (Some token_body)) 0%nat 1%nat [] ∅
             [ORequest sample_request] _
             (Response.mk 201 (Some token_body) ∅ ∅) token_body);
      reflexivity.
Defined.

(** C2, as amended.  In the refresh view, when the request body is a
    JSON object, so that [request.data] is a dict, and the request carries
    a "refresh" cookie whose value [R] is not empty, the parent view is
    called on the store in which the request body has [R] under
    "refresh", whatever the body held before, and the view's result is the
    parent's result on that store followed by the rest of the view. *)
Theorem refresh_cookie_injected (settings : Settings) (request : ref)
    (args : list pyval) (kwargs : gmap string pyval) (h : list object)
    (rq : Request.t) (R : string) :
  h !! request = Some (ORequest rq) →
  Request.COOKIES rq !! "refresh" = Some R →
  R ≠ "" →
  Request.data (injected rq "refresh" R) !! "refresh" = Some (PStr R)
  ∧ ∃ k : ref → M ref, ∀ delegate : View,
      CustomTokenRefreshView_post settings delegate request args kwargs h
      = (delegate request args kwargs ≫= k)
          (<[request := ORequest (injected rq "refresh" R)]> h).
Proof.
  intros Hrq HR Hne. split; [apply lookup_insert_eq|].
  exists (relay_access settings). intros delegate.
  rewrite (refresh_post_run _ _ _ _ _ _ _ Hrq).
  unfold forwarded. rewrite HR. by rewrite decide_False.
Qed.

Lemma refresh_cookie_injected_witness :
  Request.data (injected sample_request "refresh" "R") !! "refresh"
  = Some (PStr "R")
  ∧ ∃ k : ref → M ref, ∀ delegate : View,
      CustomTokenRefreshView_post sample_settings delegate 0%nat [] ∅
        [ORequest sample_request]
      = (delegate 0%nat [] ∅ ≫= k)
          [ORequest (injected sample_request "refresh" "R")].
Proof.
  apply (refresh_cookie_injected sample_settings 0%nat [] ∅
           [ORequest sample_request] sample_request "R");
    [reflexivity | reflexivity | discriminate].
Defined.

(** C2 as it is written fails when the cookie is there but empty: the
    parent view is then not called with the cookie's value but with the
    body as the client sent it. *)
Lemma refresh_empty_cookie_not_injected :
  [ORequest blank_cookie_request] !! 0%nat
  = Some (ORequest blank_cookie_request)
  ∧ Request.COOKIES blank_cookie_request !! "refresh" = Some ""
  ∧ CustomTokenRefreshView_post sample_settings (echo "refresh") 0%nat [] ∅
      [ORequest blank_cookie_request]
    = (Returns 1%nat,
       [ORequest blank_cookie_request;
        OResponse (Response.mk 400 (Some {[ "seen" := PStr "B" ]}) ∅ ∅)])
  ∧ ¬ ∃ k : ref → M ref, ∀ delegate : View,
        CustomTokenRefreshView_post sample_settings delegate 0%nat [] ∅
          [ORequest blank_cookie_request]
        = (delegate 0%nat [] ∅ ≫= k)
            (<[0%nat :=
                 ORequest (injected blank_cookie_request "refresh" "")]>
               [ORequest blank_cookie_request]).
Proof.
  split; [reflexivity|]. split; [reflexivity|]. split; [reflexivity|].
  intros [k Hk].
  pose proof (Hk (echo "refresh")) as Hecho.
  pose proof (Hk (answer 400 (Some {[ "seen" := PStr "" ]}))) as Hfixed.
  pose proof (eq_trans Hecho (eq_sym Hfixed)) as Hsame.
  vm_compute in Hsame. discriminate Hsame.
Qed.

(** C3, as amended.  In the verify view, when the request body is a JSON
    object, so that [request.data] is a dict, and the request carries an
    "access" cookie whose value [A] is not empty, the parent view is
    called on the store in which the request body has [A] under "token",
    whatever the body held before; with such a body the parent is always
    reached.  Whatever the request, the view's result is either exactly
    the parent's result, the same response in the store the parent left,
    the parent having been called on a store with the very responses of
    the given one, or an exception raised before the parent is called,
    with the store as it was: the view changes no response and sets no
    cookie. *)
Theorem verify_cookie_injected (delegate : View) (request : ref)
    (args : list pyval) (kwargs : gmap string pyval) (h : list object) :
  (∀ rq : Request.t,
     h !! request = Some (ORequest rq) →
     (∀ A : string,
        Request.COOKIES rq !! "access" = Some A → A ≠ "" →
        Request.data (injected rq "token" A) !! "token" = Some (PStr A)
        ∧ CustomTokenVerifyView_post delegate request args kwargs h
          = delegate request args kwargs
              (<[request := ORequest (injected rq "token" A)]> h))
     ∧ ∃ h_call : list object,
         CustomTokenVerifyView_post delegate request args kwargs h
         = delegate request args kwargs h_call
         ∧ ∀ (r : ref) (rp : Response.t),
             h_call !! r = Some (OResponse rp)
             ↔ h !! r = Some (OResponse rp))
  ∧ ((∃ h_call : list object,
        CustomTokenVerifyView_post delegate request args kwargs h
        = delegate request args kwargs h_call
        ∧ ∀ (r : ref) (rp : Response.t),
            h_call !! r = Some (OResponse rp) ↔ h !! r = Some (OResponse rp))
     ∨ ∃ e : exn,
         CustomTokenVerifyView_post delegate request args kwargs h
         = (Raises e, h)).
Proof.
  assert (Hdict : ∀ rq : Request.t,
            h !! request = Some (ORequest rq) →
            ∃ h_call : list object,
              CustomTokenVerifyView_post delegate request args kwargs h
              = delegate request args kwargs h_call
              ∧ ∀ (r : ref) (rp : Response.t),
                  h_call !! r = Some (OResponse rp)
                  ↔ h !! r = Some (OResponse rp)).
  { intros rq Hrq. exists (forwarded h request rq "access" "token"). split.
    - apply (verify_post_run _ _ _ _ _ _ Hrq).
    - intros r rp. by apply forwarded_response. }
  split.
  - intros rq Hrq. split; [|by apply (Hdict rq)].
    intros A HA Hne. split; [apply lookup_insert_eq|].
    rewrite (verify_post_run _ _ _ _ _ _ Hrq).
    unfold forwarded. rewrite HA. by rewrite decide_False.
  - destruct (h !! request) as [[rq|rp|c b]|] eqn:Hlook.
    + left. by apply (Hdict rq).
    + right. exists AttributeError.
      unfold CustomTokenVerifyView_post, COOKIES_get. rewrite !bind_run.
      unfold get_COOKIES. by rewrite Hlook.
    + unfold CustomTokenVerifyView_post.
      rewrite (forward_run_sealed _ _ _ _ _ _ _ Hlook).
      destruct (c !! "access") as [v|]; [case_decide|].
      * left. by exists h.
      * right. by eexists.
      * left. by exists h.
    + right. exists AttributeError.
      unfold CustomTokenVerifyView_post, COOKIES_get. rewrite !bind_run.
      unfold get_COOKIES. by rewrite Hlook.
Qed.

Lemma verify_cookie_injected_witness :
  ((Request.data (injected sample_request "token" "A") !! "token"
    = Some (PStr "A")
    ∧ CustomTokenVerifyView_post (echo "token") 0%nat [] ∅
        [ORequest sample_request]
      = echo "token" 0%nat [] ∅
          [ORequest (injected sample_request "token" "A")])
   ∧ ∃ h_call : list object,
       CustomTokenVerifyView_post (echo "token") 0%nat [] ∅
         [ORequest sample_request]
       = echo "token" 0%nat [] ∅ h_call
       ∧ ∀ (r : ref) (rp : Response.t),
           h_call !! r = Some (OResponse rp)
           ↔ [ORequest sample_request] !! r = Some (OResponse rp))
  ∧ ((∃ h_call : list object,
        CustomTokenVerifyView_post (answer 200 (Some ∅)) 0%nat [] ∅
          [cookieless_form_request]
        = answer 200 (Some ∅) 0%nat [] ∅ h_call
        ∧ ∀ (r : ref) (rp : Response.t),
            h_call !! r = Some (OResponse rp)
            ↔ [cookieless_form_request] !! r = Some (OResponse rp))
     ∨ ∃ e : exn,
         CustomTokenVerifyView_post (answer 200 (Some ∅)) 0%nat [] ∅
           [cookieless_form_request]
         = (Raises e, [cookieless_form_request])).
Proof.
  split.
  - destruct (proj1 (verify_cookie_injected (echo "token") 0%nat [] ∅
                       [ORequest sample_request]) sample_request eq_refl)
      as [Hinjected Hsame].
    split; [|exact Hsame].
    apply (Hinjected "A"); [reflexivity | discriminate].
  - exact (proj2 (verify_cookie_injected (answer 200 (Some ∅)) 0%nat [] ∅
                    [cookieless_form_request])).
Defined.

(** C3 as it is written fails when the cookie is there but empty: the
    parent view finds the body's own token, not the cookie's value. *)
Lemma verify_empty_cookie_not_injected :
  [ORequest blank_cookie_request] !! 0%nat
  = Some (ORequest blank_cookie_request)
  ∧ Request.COOKIES blank_cookie_request !! "access" = Some ""
  ∧ CustomTokenVerifyView_post (echo "token") 0%nat [] ∅
      [ORequest blank_cookie_request]
    = (Returns 1%nat,
       [ORequest blank_cookie_request;
        OResponse (Response.mk 400 (Some {[ "seen" := PStr "B" ]}) ∅ ∅)])
  ∧ CustomTokenVerifyView_post (echo "token") 0%nat [] ∅
      [ORequest blank_cookie_request]
    ≠ echo "token" 0%nat [] ∅
        (<[0%nat := ORequest (injected blank_cookie_request "token" "")]>
           [ORequest blank_cookie_request]).
Proof.
  split; [reflexivity|]. split; [reflexivity|]. split; [reflexivity|].
  vm_compute. discriminate.
Qed.

(** C4. Both login views, when the parent view answers with any status
    other than the one the view tests for, return the parent's response
    and leave the store as the parent left it: no cookie is added and
    nothing of the response is changed. *)
Theorem login_failure_passes_through (l : login) (settings : Settings)
    (delegate : View) (request r : ref) (args : list pyval)
    (kwargs : gmap string pyval) (h h' : list object)
    (rp : Response.t) :
  delegate request args kwargs h = (Returns r, h') →
  h' !! r = Some (OResponse rp) →
  Response.status_code rp ≠ login_success l →
  login_post l settings delegate request args kwargs h = (Returns r, h')
  ∧ login_post l settings delegate request args kwargs h
    = delegate request args kwargs h.
Proof.
  intros Hdel Hr Hcode.
  rewrite (login_post_run l settings _ _ _ _ _ _ _ _ Hdel Hr).
  by rewrite decide_False.
Qed.

Lemma login_failure_passes_through_witness :
  let passes := λ (l : login) (status : Z),
    login_post l sample_settings
      (answer status (Some {[ "detail" := PStr "no" ]})) 0%nat [] ∅
      [ORequest sample_request]
    = (Returns 1%nat,
       [ORequest sample_request;
        OResponse
          (Response.mk status (Some {[ "detail" := PStr "no" ]}) ∅ ∅)])
    ∧ login_post l sample_settings
        (answer status (Some {[ "detail" := PStr "no" ]})) 0%nat [] ∅
        [ORequest sample_request]
      = answer status (Some {[ "detail" := PStr "no" ]}) 0%nat [] ∅
          [ORequest sample_request] in
  passes PasswordLogin 401 ∧ passes SocialLogin 200.
Proof.
  cbv beta zeta. split.
  - apply (login_failure_passes_through PasswordLogin sample_settings
             (answer 401 (Some {[ "detail" := PStr "no" ]})) 0%nat 1%nat [] ∅
             [ORequest sample_request] _
             (Response.mk 401 (Some {[ "detail" := PStr "no" ]}) ∅ ∅));
      [reflexivity | reflexivity | discriminate].
  - apply (login_failure_passes_through SocialLogin sample_settings
             (answer 200 (Some {[ "detail" := PStr "no" ]})) 0%nat 1%nat [] ∅
             [ORequest sample_request] _
             (Response.mk 200 (Some {[ "detail" := PStr "no" ]}) ∅ ∅));
      [reflexivity | reflexivity | discriminate].
Defined.



(** C6. The logout view, for every request reference and every store
    (whatever the request holds, cookies included), returns a new response
    with status 204 and no body whose cookie jar tells the client to
    delete "access" and "refresh"; it never raises, and it leaves every
    object of the store as it was. *)
Theorem logout_deletes_both_cookies (request : ref) (args : list pyval)
    (kwargs : gmap string pyval) (h : list object) :
  LogoutView_post request args kwargs h
  = (Returns (length h),
     h ++ [OResponse
             (Response.mk 204 None
                {[ "access" := DeleteCookie; "refresh" := DeleteCookie ]}
                ∅)]).
Proof.
  unfold LogoutView_post, new_Response.
  rewrite bind_run, bind_run.
  erewrite delete_cookie_run by apply lookup_allocated.
  rewrite store_allocated, bind_run.
  erewrite delete_cookie_run by apply lookup_allocated.
  rewrite store_allocated. reflexivity.
Qed.

(** C7. Each of the three policy views, for every request reference and
    every store, returns a new response with status 200 whose body is the
    single field "message" holding exactly the view's literal text, with
    an empty cookie jar; the objects of the store are left as they were,
    and the view admits any caller. *)
Theorem policy_views_return_fixed_text (request : ref) (args : list pyval)
    (kwargs : gmap string pyval) (h : list object) :
  (PrivacyPolicyView_get request args kwargs h
   = (Returns (length h),
      h ++ [OResponse
              (Response.mk 200
                 (Some {[ "message" := PStr "This is the privacy policy of our application. We value your privacy and are committed to protecting your personal information." ]})
                 ∅ ∅)])
   ∧ PrivacyPolicyView_permission_classes = [AllowAny])
  ∧ (TermsOfServiceView_get request args kwargs h
     = (Returns (length h),
        h ++ [OResponse
                (Response.mk 200
                   (Some {[ "message" := PStr "
        These are the terms of service of our application. By using our service, you agree to comply with these terms.
        " ]})
                   ∅ ∅)])
     ∧ TermsOfServiceView_permission_classes = [AllowAny])
  ∧ (DataDeletionPolicyView_get request args kwargs h
     = (Returns (length h),
        h ++ [OResponse
                (Response.mk 200
                   (Some {[ "message" := PStr "
        This is the data deletion policy of our application. You can request the deletion of your personal data at any time.
        " ]})
                   ∅ ∅)])
     ∧ DataDeletionPolicyView_permission_classes = [AllowAny]).
Proof. repeat split. Qed.








(** * Further properties of the views *)

Lemma injected_twice (rq : Request.t) (field v : string) :
  injected (injected rq field v) field v = injected rq field v.
Proof. unfold injected. cbn. by rewrite insert_insert_eq. Qed.

Lemma forwarded_twice (h : list object) (request : ref) (rq : Request.t)
    (cookie field : string) :
  h !! request = Some (ORequest rq) →
  ∃ rq1 : Request.t,
    forwarded h request rq cookie field !! request = Some (ORequest rq1)
    ∧ forwarded (forwarded h request rq cookie field) request rq1
        cookie field
      = forwarded h request rq cookie field.
Proof.
  intros Hrq. unfold forwarded at 1 3 4.
  destruct (Request.COOKIES rq !! cookie) as [v|] eqn:Hv.
  - case_decide as Hempty.
    + exists rq. split; [done|]. unfold forwarded. rewrite Hv.
      by rewrite decide_True.
    + exists (injected rq field v). split; [by eapply lookup_stored|].
      unfold forwarded. cbn [injected Request.COOKIES]. rewrite Hv.
      rewrite decide_False by done.
      by rewrite list_insert_insert_eq, injected_twice.
  - exists rq. split; [done|]. unfold forwarded. by rewrite Hv.
Qed.

Lemma forwarded_differs_in_field (h : list object) (request : ref)
    (rq : Request.t) (cookie field : string) :
  h !! request = Some (ORequest rq) →
  differs_in_field h (forwarded h request rq cookie field) request rq field.
Proof.
  intros Hrq. unfold differs_in_field, forwarded.
  destruct (Request.COOKIES rq !! cookie) as [v|].
  - case_decide.
    + split; [done|]. split; [done|]. by exists rq.
    + split; [apply length_insert|].
      split; [intros r Hne; by apply list_lookup_insert_ne|].
      exists (injected rq field v).
      split; [by eapply lookup_stored|]. split; [done|].
      intros key Hkey. cbn. by apply lookup_insert_ne.
  - split; [done|]. split; [done|]. by exists rq.
Qed.





(** X3. On a request whose body is a JSON object, before the parent
    view is called the refresh view changes nothing in the store but the
    entry "refresh" of the request body, and the verify view nothing but
    the entry "token": the request keeps its cookies and every other
    entry of its body, every other object is as it was, and nothing is
    allocated. *)
Theorem injection_changes_one_body_field (request : ref)
    (args : list pyval) (kwargs : gmap string pyval) (h : list object)
    (rq : Request.t) :
  h !! request = Some (ORequest rq) →
  (∃ h_call : list object,
     differs_in_field h h_call request rq "refresh"
     ∧ ∃ k : Settings → ref → M ref,
         ∀ (settings : Settings) (delegate : View),
           CustomTokenRefreshView_post settings delegate request args kwargs h
           = (delegate request args kwargs ≫= k settings) h_call)
  ∧ ∃ h_call : list object,
      differs_in_field h h_call request rq "token"
      ∧ ∀ delegate : View,
          CustomTokenVerifyView_post delegate request args kwargs h
          = delegate request args kwargs h_call.
Proof.
  intros Hrq. split.
  - exists (forwarded h request rq "refresh" "refresh").
    split; [by apply forwarded_differs_in_field|].
    exists relay_access. intros settings delegate.
    apply (refresh_post_run _ _ _ _ _ _ _ Hrq).
  - exists (forwarded h request rq "access" "token").
    split; [by apply forwarded_differs_in_field|].
    intros delegate. apply (verify_post_run _ _ _ _ _ _ Hrq).
Qed.

Lemma injection_changes_one_body_field_witness :
  (∃ h_call : list object,
     differs_in_field
       [ORequest sample_request; OResponse (Response.mk 200 None ∅ ∅)]
       h_call 0%nat sample_request "refresh"
     ∧ ∃ k : Settings → ref → M ref,
         ∀ (settings : Settings) (delegate : View),
           CustomTokenRefreshView_post settings delegate 0%nat [] ∅
             [ORequest sample_request; OResponse (Response.mk 200 None ∅ ∅)]
           = (delegate 0%nat [] ∅ ≫= k settings) h_call)
  ∧ ∃ h_call : list object,
      differs_in_field
        [ORequest sample_request; OResponse (Response.mk 200 None ∅ ∅)]
        h_call 0%nat sample_request "token"
      ∧ ∀ delegate : View,
          CustomTokenVerifyView_post delegate 0%nat [] ∅
            [ORequest sample_request; OResponse (Response.mk 200 None ∅ ∅)]
          = delegate 0%nat [] ∅ h_call.
Proof.
  apply (injection_changes_one_body_field 0%nat [] ∅
           [ORequest sample_request; OResponse (Response.mk 200 None ∅ ∅)]
           sample_request).
  reflexivity.
Defined.

(** X4. The injection is idempotent: on a store that the view's own
    injection has already produced, the refresh view and the verify view
    give the result they give on the store before it. *)
Theorem injection_is_idempotent (settings : Settings) (delegate : View)
    (request : ref) (args : list pyval) (kwargs : gmap string pyval)
    (h : list object) (rq : Request.t) :
  h !! request = Some (ORequest rq) →
  CustomTokenRefreshView_post settings delegate request args kwargs
    (forwarded h request rq "refresh" "refresh")
  = CustomTokenRefreshView_post settings delegate request args kwargs h
  ∧ CustomTokenVerifyView_post delegate request args kwargs
      (forwarded h request rq "access" "token")
    = CustomTokenVerifyView_post delegate request args kwargs h.
Proof.
  intros Hrq. split.
  - destruct (forwarded_twice h request rq "refresh" "refresh" Hrq)
      as (rq1 & Hrq1 & Hsame).
    rewrite (refresh_post_run _ _ _ _ _ _ _ Hrq1), Hsame.
    by rewrite (refresh_post_run _ _ _ _ _ _ _ Hrq).
  - destruct (forwarded_twice h request rq "access" "token" Hrq)
      as (rq1 & Hrq1 & Hsame).
    rewrite (verify_post_run _ _ _ _ _ _ Hrq1), Hsame.
    by rewrite (verify_post_run _ _ _ _ _ _ Hrq).
Qed.

Lemma injection_is_idempotent_witness :
  CustomTokenRefreshView_post sample_settings (echo "refresh") 0%nat [] ∅
    [ORequest (injected sample_request "refresh" "R")]
  = CustomTokenRefreshView_post sample_settings (echo "refresh") 0%nat [] ∅
      [ORequest sample_request]
  ∧ CustomTokenVerifyView_post (echo "token") 0%nat [] ∅
      [ORequest (injected sample_request "token" "A")]
    = CustomTokenVerifyView_post (echo "token") 0%nat [] ∅
        [ORequest sample_request].
Proof.
  split.
  - apply (proj1 (injection_is_idempotent sample_settings (echo "refresh")
                    0%nat [] ∅ [ORequest sample_request] sample_request
                    eq_refl)).
  - apply (proj2 (injection_is_idempotent sample_settings (echo "token")
                    0%nat [] ∅ [ORequest sample_request] sample_request
                    eq_refl)).
Defined.

(** X7. On a request whose body takes no item assignment, a non-empty
    "refresh" cookie makes the refresh view raise, and a non-empty
    "access" cookie makes the verify view raise, at the assignment into
    [request.data]: [AttributeError] on the immutable [QueryDict] of a
    form-encoded body, [TypeError] on a JSON list or scalar.  The parent
    view is not called, whatever it is, and the store is as it was. *)
Theorem assignment_raises_on_sealed_body (settings : Settings)
    (delegate : View) (request : ref) (args : list pyval)
    (kwargs : gmap string pyval) (h : list object)
    (c : gmap string string) (b : sealed_body) :
  h !! request = Some (OSealedRequest c b) →
  (∀ v : string,
     c !! "refresh" = Some v → v ≠ "" →
     CustomTokenRefreshView_post settings delegate request args kwargs h
     = (Raises
          match b with
          | QueryDict _ => AttributeError
          | JsonArray _ | JsonScalar _ => TypeError
          end, h))
  ∧ ∀ v : string,
      c !! "access" = Some v → v ≠ "" →
      CustomTokenVerifyView_post delegate request args kwargs h
      = (Raises
           match b with
           | QueryDict _ => AttributeError
           | JsonArray _ | JsonScalar _ => TypeError
           end, h).
Proof.
  intros Hrq. split; intros v Hv Hne.
  - unfold CustomTokenRefreshView_post.
    rewrite (forward_run_sealed _ _ _ _ _ _ _ Hrq), Hv.
    rewrite decide_False by done. by destruct b.
  - unfold CustomTokenVerifyView_post.
    rewrite (forward_run_sealed _ _ _ _ _ _ _ Hrq), Hv.
    rewrite decide_False by done. by destruct b.
Qed.

Lemma assignment_raises_on_sealed_body_witness :
  (CustomTokenRefreshView_post sample_settings
     (answer 200 (Some token_body)) 0%nat [] ∅ [form_request]
   = (Raises AttributeError, [form_request])
   ∧ CustomTokenVerifyView_post (answer 200 (Some ∅)) 0%nat [] ∅
       [form_request]
     = (Raises AttributeError, [form_request]))
  ∧ CustomTokenRefreshView_post sample_settings
      (answer 200 (Some token_body)) 0%nat [] ∅ [array_request]
    = (Raises TypeError, [array_request])
  ∧ CustomTokenVerifyView_post (answer 200 (Some ∅)) 0%nat [] ∅
      [array_request]
    = (Raises TypeError, [array_request]).
Proof.
  split; [split|split].
  - apply (proj1 (assignment_raises_on_sealed_body sample_settings
                    (answer 200 (Some token_body)) 0%nat [] ∅
                    [form_request]
                    {[ "access" := "A"; "refresh" := "R" ]}
                    (QueryDict {[ "refresh" := ["B"]; "token" := ["B"] ]})
                    eq_refl) "R"); [reflexivity | discriminate].
  - apply (proj2 (assignment_raises_on_sealed_body sample_settings
                    (answer 200 (Some ∅)) 0%nat [] ∅ [form_request]
                    {[ "access" := "A"; "refresh" := "R" ]}
                    (QueryDict {[ "refresh" := ["B"]; "token" := ["B"] ]})
                    eq_refl) "A"); [reflexivity | discriminate].
  - apply (proj1 (assignment_raises_on_sealed_body sample_settings
                    (answer 200 (Some token_body)) 0%nat [] ∅
                    [array_request]
                    {[ "access" := "A"; "refresh" := "R" ]} (JsonArray [])
                    eq_refl) "R"); [reflexivity | discriminate].
  - apply (proj2 (assignment_raises_on_sealed_body sample_settings
                    (answer 200 (Some ∅)) 0%nat [] ∅ [array_request]
                    {[ "access" := "A"; "refresh" := "R" ]} (JsonArray [])
                    eq_refl) "A"); [reflexivity | discriminate].
Defined.
